(** * Sector geometry of the Telecom Sector Visualizer

    Shallow embedding of [get_sector_polygon] (app_csv_visualizer.py) over
    the real numbers, in a small state-and-exception monad: the state is the
    script's sidebar configuration, the exceptions are the ones Python's
    arithmetic and [math] module raise. *)

From Stdlib Require Import Reals Lra Lia ZArith Bool String List Psatz Sorted.
From Stdlib Require Import Zfloor Machin RNsatz DecimalString.
Import ListNotations.

Open Scope R_scope.

(** ** Python runtime: exceptions, module globals, the evaluation monad *)

Module Py.

(** The exceptions the arithmetic of the function can raise. *)
Inductive exn : Type :=
| ValueError (msg : string)
| ZeroDivisionError (msg : string).

(** Module-level names bound by the sidebar widgets (lines 15-17). *)
Record Globals : Type := mkGlobals {
  sector_radius : Z;
  fill_opacity : R;
  sector_color : string
}.

(** The sidebar defaults: [value=300], [value=0.5], ["#3388ff"]. *)
Definition default_globals : Globals :=
  mkGlobals 300 (1 / 2) "#3388ff".

Definition M (A : Type) : Type := Globals -> Globals * (exn + A).

Definition ret {A : Type} (a : A) : M A := fun g => (g, inr a).

Definition raise {A : Type} (e : exn) : M A := fun g => (g, inl e).

Definition bind {A B : Type} (m : M A) (k : A -> M B) : M B :=
  fun g =>
    match m g with
    | (g', inr a) => k a g'
    | (g', inl e) => (g', inl e)
    end.

(** Result of a call started in state [g], without the final state. *)
Definition outcome {A : Type} (m : M A) (g : Globals) : exn + A := snd (m g).

(** A list comprehension whose element expression may raise. *)
Fixpoint comprehension {A B : Type} (f : A -> M B) (l : list A) : M (list B) :=
  match l with
  | [] => ret []
  | a :: l' => bind (f a) (fun b => bind (comprehension f l') (fun bs => ret (b :: bs)))
  end.

End Py.

Notation "x <- m ;; k" := (Py.bind m (fun x => k))
  (at level 61, m at next level, right associativity).

(** ** The [math] module and the float operators, over the reals *)

Module math.

(** [math.radians(x)] multiplies by pi/180, [math.degrees(x)] by 180/pi. *)
Definition radians (x : R) : R := x * (PI / 180).
Definition degrees (x : R) : R := x * (180 / PI).

(** [math.asin] raises [ValueError] outside [-1, 1]. *)
Definition asin (x : R) : Py.M R :=
  if Rle_dec (-1) x then
    if Rle_dec x 1 then Py.ret (Ratan.asin x)
    else Py.raise (Py.ValueError "math domain error")
  else Py.raise (Py.ValueError "math domain error").

(** [math.atan2(y, x)]: the angle of the point (x, y), in (-pi, pi];
    it is defined everywhere, with [atan2(0, 0) = 0]. *)
Definition atan2 (y x : R) : R :=
  if Rlt_dec 0 x then atan (y / x)
  else if Rlt_dec x 0 then
    if Rle_dec 0 y then atan (y / x) + PI else atan (y / x) - PI
  else if Rlt_dec 0 y then PI / 2
  else if Rlt_dec y 0 then - (PI / 2)
  else 0.

End math.

(** Float division [x / y] raises [ZeroDivisionError] on a zero divisor. *)
Definition truediv (x y : R) : Py.M R :=
  if Req_dec_T y 0 then Py.raise (Py.ZeroDivisionError "float division by zero")
  else Py.ret (x / y).

(** [int(x)] truncates toward zero. *)
Definition int (x : R) : Z :=
  if Rle_dec 0 x then Zfloor x else Zceil x.

(** [range(n)]: 0, 1, ..., n-1 (empty when n <= 0). *)
Definition range (n : Z) : list Z := map Z.of_nat (seq 0 (Z.to_nat n)).

(** ** get_sector_polygon *)

Definition point : Type := (R * R)%type.

(** Line 35: [R = 6378137.0], the Earth's radius in meters (the source's
    name [R] is the type of reals here). *)
Definition R_earth : R := 6378137.

(** Line 44: [int(beamwidth) if beamwidth > 10 else 10]. *)
Definition num_points_init (beamwidth : R) : Z :=
  if Rlt_dec 10 beamwidth then int beamwidth else 10%Z.

(** Line 45: [if num_points < 3: num_points = 3]. *)
Definition num_points (beamwidth : R) : Z :=
  let n := num_points_init beamwidth in
  if (n <? 3)%Z then 3%Z else n.

(** Lines 38-47: the sampled bearings. *)
Definition angles (azimuth beamwidth : R) : Py.M (list R) :=
  half_bw <- truediv beamwidth 2 ;;
  let start_angle := azimuth - half_bw in
  let end_angle := azimuth + half_bw in
  let num_points := num_points beamwidth in
  Py.comprehension
    (fun i : Z =>
       q <- truediv ((end_angle - start_angle) * IZR i) (IZR (num_points - 1)) ;;
       Py.ret (start_angle + q))
    (range num_points).

(** Lines 64-73: the body of the loop, for one bearing [angle]. *)
Definition arc_point (lat lon radius_meters angle : R) : Py.M point :=
  let theta := math.radians angle in
  delta <- truediv radius_meters R_earth ;;
  let phi1 := math.radians lat in
  let lam1 := math.radians lon in
  phi2 <- math.asin (sin phi1 * cos delta + cos phi1 * sin delta * cos theta) ;;
  let lam2 := lam1 + math.atan2 (sin theta * sin delta * cos phi1)
                                (cos delta - sin phi1 * sin phi2) in
  let p_lat := math.degrees phi2 in
  let p_lon := math.degrees lam2 in
  Py.ret (p_lat, p_lon).

(** Lines 51-75: [for angle in angles: ... polygon_points.append(...)]. *)
Fixpoint for_angle (lat lon radius_meters : R) (angles : list R)
    (polygon_points : list point) : Py.M (list point) :=
  match angles with
  | [] => Py.ret polygon_points
  | angle :: rest =>
      p <- arc_point lat lon radius_meters angle ;;
      for_angle lat lon radius_meters rest (polygon_points ++ [p])
  end.

Definition get_sector_polygon (lat lon azimuth beamwidth radius_meters : R)
    : Py.M (list point) :=
  angles <- angles azimuth beamwidth ;;
  let polygon_points := [(lat, lon)] in
  polygon_points <- for_angle lat lon radius_meters angles polygon_points ;;
  Py.ret (polygon_points ++ [(lat, lon)]).

(** A call raises when its outcome is an exception. *)
Definition raises {A : Type} (m : Py.M A) (g : Py.Globals) : Prop :=
  exists e : Py.exn, Py.outcome m g = inl e.

(** ** The values the function computes, written without the monad *)

Definition start_angle (azimuth beamwidth : R) : R := azimuth - beamwidth / 2.
Definition end_angle (azimuth beamwidth : R) : R := azimuth + beamwidth / 2.

(** The i-th sampled bearing, with the source's order of operations. *)
Definition bearing (azimuth beamwidth : R) (i : Z) : R :=
  start_angle azimuth beamwidth
  + (end_angle azimuth beamwidth - start_angle azimuth beamwidth) * IZR i
    / IZR (num_points beamwidth - 1).

Definition bearings (azimuth beamwidth : R) : list R :=
  map (bearing azimuth beamwidth) (range (num_points beamwidth)).

(** The argument handed to [math.asin] on line 69. *)
Definition asin_arg (lat radius_meters angle : R) : R :=
  sin (math.radians lat) * cos (radius_meters / R_earth)
  + cos (math.radians lat) * sin (radius_meters / R_earth) * cos (math.radians angle).

Definition dest_lat (lat radius_meters angle : R) : R :=
  math.degrees (Ratan.asin (asin_arg lat radius_meters angle)).

Definition dest_lon (lat lon radius_meters angle : R) : R :=
  math.degrees
    (math.radians lon
     + math.atan2
         (sin (math.radians angle) * sin (radius_meters / R_earth) * cos (math.radians lat))
         (cos (radius_meters / R_earth)
          - sin (math.radians lat) * sin (Ratan.asin (asin_arg lat radius_meters angle)))).

Definition destination (lat lon radius_meters angle : R) : point :=
  (dest_lat lat radius_meters angle, dest_lon lat lon radius_meters angle).

Definition sector_ring (lat lon azimuth beamwidth radius_meters : R) : list point :=
  (lat, lon) :: map (destination lat lon radius_meters) (bearings azimuth beamwidth)
    ++ [(lat, lon)].

(** ** The spec's reading, for comparison *)

(** Python's [round]: to the nearest integer, ties to the even one. *)
Definition round_half_even (x : R) : Z :=
  let f := Zfloor x in
  if Rlt_dec (x - IZR f) (1 / 2) then f
  else if Rlt_dec (1 / 2) (x - IZR f) then (f + 1)%Z
  else if Z.even f then f else (f + 1)%Z.

(** Spec 4.1 step 1: [n = max(3, round(beamwidth))] when [beamwidth > 10],
    otherwise [n = 10], floored at 3. *)
Definition spec_num_points (beamwidth : R) : Z :=
  Z.max 3 (if Rlt_dec 10 beamwidth then Z.max 3 (round_half_even beamwidth) else 10%Z).

(** Spec 3 and 4.1: the inputs the spec calls valid. *)
Definition valid_input (lat lon beamwidth radius_meters : R) : Prop :=
  -90 <= lat <= 90 /\ -180 <= lon <= 180 /\ 0 < beamwidth /\ 0 < radius_meters.

(** ** Measures used to state the geometry of the result *)

(** Cosine of the central angle between two points given in degrees
    (spherical law of cosines). *)
Definition cos_central_angle (p q : point) : R :=
  sin (math.radians (fst p)) * sin (math.radians (fst q))
  + cos (math.radians (fst p)) * cos (math.radians (fst q))
    * cos (math.radians (snd q - snd p)).

(** Great-circle distance in meters on the sphere of radius [R_earth]. *)
Definition great_circle_distance (p q : point) : R :=
  R_earth * acos (cos_central_angle p q).

(** ** The script around the function *)

(** Line 85. *)
Definition REQUIRED_COLUMNS : list string :=
  ["ENODEB_ID"; "CELL_ID"; "LONGITUDE"; "LATITUDE"; "AZIMUTH"; "BEAMWIDTH_H"]%string.

(** Line 92: [[col for col in REQUIRED_COLUMNS if col not in df.columns]]. *)
Definition missing_cols (columns : list string) : list string :=
  filter (fun col => negb (existsb (String.eqb col) columns)) REQUIRED_COLUMNS.

(** What the loop uses of Python's builtins on a cell of the frame:
    [float(x)], which returns a number or raises, and the text an f-string
    puts for a cell and for a float. *)
Record Builtins (Cell : Type) : Type := mkBuiltins {
  float : Cell -> Py.exn + R;
  str : Cell -> string;
  str_float : R -> string
}.
Arguments float {Cell}.
Arguments str {Cell}.
Arguments str_float {Cell}.

(** A row of the frame, by the six required columns. *)
Record Row (Cell : Type) : Type := mkRow {
  ENODEB_ID : Cell;
  CELL_ID : Cell;
  LONGITUDE : Cell;
  LATITUDE : Cell;
  AZIMUTH : Cell;
  BEAMWIDTH_H : Cell
}.
Arguments ENODEB_ID {Cell}.
Arguments CELL_ID {Cell}.
Arguments LONGITUDE {Cell}.
Arguments LATITUDE {Cell}.
Arguments AZIMUTH {Cell}.
Arguments BEAMWIDTH_H {Cell}.

(** Lines 122-130: the arguments of [folium.Polygon]. *)
Record Polygon : Type := mkPolygon {
  locations : list point;
  color : string;
  weight : Z;
  fill : bool;
  fill_color : string;
  fill_opacity : R;
  tooltip : string
}.

(** [str(i)] of an integer and [str(e)] of an exception. *)
Definition str_int (i : Z) : string := NilZero.string_of_int (Z.to_int i).

Definition str_exn (e : Py.exn) : string :=
  match e with
  | Py.ValueError msg => msg
  | Py.ZeroDivisionError msg => msg
  end.

(** The value of a builtin that returns or raises. *)
Definition call {A : Type} (r : Py.exn + A) : Py.M A := fun g => (g, r).

(** Reading a module-level name. *)
Definition global {A : Type} (name : Py.Globals -> A) : Py.M A :=
  fun g => (g, inr (name g)).

(** [try: body / except Exception as e: handler]. *)
Definition try_except {A : Type} (body : Py.M A) (handler : Py.exn -> Py.M A)
    : Py.M A :=
  fun g =>
    match body g with
    | (g', inl e) => handler e g'
    | (g', inr a) => (g', inr a)
    end.

(** Line 120: the f-string of the tooltip. *)
Definition tooltip_text {Cell : Type} (B : Builtins Cell) (row : Row Cell)
    (azimuth bw : R) : string :=
  ("<b>ENodeB:</b> " ++ str B (ENODEB_ID row)
   ++ "<br><b>Cell ID:</b> " ++ str B (CELL_ID row)
   ++ "<br><b>Azimuth:</b> " ++ str_float B azimuth
   ++ "<br><b>Beamwidth:</b> " ++ str_float B bw)%string.

(** Lines 113-130: the body of the [try], up to the polygon handed to
    [add_to(m)]. *)
Definition plot_row {Cell : Type} (B : Builtins Cell) (row : Row Cell)
    : Py.M Polygon :=
  lat <- call (float B (LATITUDE row)) ;;
  lon <- call (float B (LONGITUDE row)) ;;
  azimuth <- call (float B (AZIMUTH row)) ;;
  bw <- call (float B (BEAMWIDTH_H row)) ;;
  sector_radius <- global Py.sector_radius ;;
  points <- get_sector_polygon lat lon azimuth bw (IZR sector_radius) ;;
  let tooltip_text := tooltip_text B row azimuth bw in
  sector_color <- global Py.sector_color ;;
  fill_opacity <- global Py.fill_opacity ;;
  Py.ret (mkPolygon points "black" 1 true sector_color fill_opacity tooltip_text).

(** Line 133: the text of the warning. *)
Definition warning_text (i : Z) (e : Py.exn) : string :=
  ("Error plotting row " ++ str_int i ++ ": " ++ str_exn e)%string.

(** Lines 111-137: the loop over [df.iterrows()], on the layers of the
    map [m] and the warnings shown so far. *)
Fixpoint for_row {Cell : Type} (B : Builtins Cell) (rows : list (Z * Row Cell))
    (m : list Polygon) (warnings : list string)
    : Py.M (list Polygon * list string) :=
  match rows with
  | [] => Py.ret (m, warnings)
  | (i, row) :: rest =>
      r <- try_except (p <- plot_row B row ;; Py.ret (inr p))
                      (fun e => Py.ret (inl (warning_text i e))) ;;
      match r with
      | inl w => for_row B rest m (warnings ++ [w])
      | inr p =>
          let m := m ++ [p] in
          if (100 <? i)%Z then Py.ret (m, warnings)
          else for_row B rest m warnings
      end
  end.

(** The four conversions of lines 113-116, in the source's order. *)
Definition conversions {Cell : Type} (B : Builtins Cell) (row : Row Cell)
    : Py.exn + (R * R * R * R) :=
  match float B (LATITUDE row) with
  | inl e => inl e
  | inr lat =>
      match float B (LONGITUDE row) with
      | inl e => inl e
      | inr lon =>
          match float B (AZIMUTH row) with
          | inl e => inl e
          | inr azimuth =>
              match float B (BEAMWIDTH_H row) with
              | inl e => inl e
              | inr bw => inr (lat, lon, azimuth, bw)
              end
          end
      end
  end.

(** The layer a row with numeric cells puts on the map. *)
Definition sector_layer {Cell : Type} (B : Builtins Cell) (row : Row Cell)
    (g : Py.Globals) (v : R * R * R * R) : Polygon :=
  let '(lat, lon, azimuth, bw) := v in
  mkPolygon (sector_ring lat lon azimuth bw (IZR (Py.sector_radius g)))
            "black" 1 true (Py.sector_color g) (Py.fill_opacity g)
            (tooltip_text B row azimuth bw).

(** A list of points that starts and ends at the same point. *)
Definition closed_ring (l : list point) : Prop :=
  exists (c : point) (arc : list point), l = c :: arc ++ [c].


Definition text_builtins : Builtins string :=
  mkBuiltins string
    (fun s => inl (Py.ValueError ("could not convert string to float: " ++ s)%string))
    (fun s => s) (fun _ => EmptyString).


Definition text_row : Row string :=
  mkRow string "a"%string "b"%string "c"%string "d"%string "e"%string "f"%string.

(** ** Basic facts *)

Lemma bind_run {A B : Type} (m : Py.M A) (k : A -> Py.M B) (g : Py.Globals) (a : A) :
  m g = (g, inr a) -> Py.bind m k g = k a g.
Proof. intros H. unfold Py.bind. now rewrite H. Qed.

Lemma comprehension_run {A B : Type} (f : A -> Py.M B) (h : A -> B) (l : list A)
    (g : Py.Globals) :
  (forall a, In a l -> f a g = (g, inr (h a))) ->
  Py.comprehension f l g = (g, inr (map h l)).
Proof.
  induction l as [|a l IH]; intros Hf; simpl.
  - reflexivity.
  - rewrite (bind_run _ _ g (h a)) by (apply Hf; now left).
    rewrite (bind_run _ _ g (map h l)) by (apply IH; intros; apply Hf; now right).
    reflexivity.
Qed.

Lemma truediv_run (x y : R) (g : Py.Globals) :
  y <> 0 -> truediv x y g = (g, inr (x / y)).
Proof.
  intros Hy. unfold truediv. destruct (Req_dec_T y 0) as [E|_]; [contradiction|reflexivity].
Qed.

Lemma range_spec (n i : Z) : In i (range n) <-> (0 <= i < n)%Z.
Proof.
  unfold range. rewrite in_map_iff. split.
  - intros [k [<- Hk]]. apply in_seq in Hk. lia.
  - intros Hi. exists (Z.to_nat i). split; [lia|]. apply in_seq. lia.
Qed.

Lemma range_length (n : Z) : length (range n) = Z.to_nat n.
Proof. unfold range. now rewrite length_map, length_seq. Qed.

Lemma int_floor (x : R) : 0 <= x -> int x = Zfloor x.
Proof. intros Hx. unfold int. destruct (Rle_dec 0 x); [reflexivity|contradiction]. Qed.

Lemma num_points_init_ge_10 (beamwidth : R) : (10 <= num_points_init beamwidth)%Z.
Proof.
  unfold num_points_init. destruct (Rlt_dec 10 beamwidth) as [H|H]; [|lia].
  rewrite int_floor by lra. apply Zfloor_lub. simpl. lra.
Qed.

Lemma num_points_eq_init (beamwidth : R) : num_points beamwidth = num_points_init beamwidth.
Proof.
  unfold num_points. pose proof (num_points_init_ge_10 beamwidth) as H.
  destruct (Z.ltb_spec (num_points_init beamwidth) 3); [lia|reflexivity].
Qed.

Lemma num_points_ge_10 (beamwidth : R) : (10 <= num_points beamwidth)%Z.
Proof. rewrite num_points_eq_init. apply num_points_init_ge_10. Qed.

Lemma R_earth_pos : 0 < R_earth.
Proof. unfold R_earth. lra. Qed.

(** Cauchy-Schwarz on (sin phi1, cos phi1) and (cos delta, sin delta cos theta). *)
Lemma asin_arg_sqr (lat radius_meters angle : R) :
  (asin_arg lat radius_meters angle)²
  <= (cos (radius_meters / R_earth))²
     + (sin (radius_meters / R_earth))² * (cos (math.radians angle))².
Proof.
  unfold asin_arg.
  set (p := math.radians lat). set (d := radius_meters / R_earth).
  set (t := math.radians angle).
  pose proof (sin2_cos2 p) as Hp. unfold Rsqr in *.
  pose proof (Rle_0_sqr (sin p * (sin d * cos t) - cos p * cos d)) as Hsq.
  unfold Rsqr in Hsq.
  assert (E : cos d * cos d + sin d * sin d * (cos t * cos t)
              - (sin p * cos d + cos p * sin d * cos t)
                * (sin p * cos d + cos p * sin d * cos t)
              = (sin p * (sin d * cos t) - cos p * cos d)
                * (sin p * (sin d * cos t) - cos p * cos d)
                + (1 - (sin p * sin p + cos p * cos p))
                  * (cos d * cos d + sin d * sin d * (cos t * cos t))) by ring.
  rewrite Hp in E. lra.
Qed.

Lemma asin_arg_sqr_le_1 (lat radius_meters angle : R) :
  (cos (radius_meters / R_earth))²
  + (sin (radius_meters / R_earth))² * (cos (math.radians angle))² <= 1.
Proof.
  set (d := radius_meters / R_earth). set (t := math.radians angle).
  pose proof (sin2_cos2 d) as Hd. pose proof (sin2_cos2 t) as Ht.
  unfold Rsqr in *. nra.
Qed.

Lemma asin_arg_bounds (lat radius_meters angle : R) :
  -1 <= asin_arg lat radius_meters angle <= 1.
Proof.
  pose proof (asin_arg_sqr lat radius_meters angle) as H1.
  pose proof (asin_arg_sqr_le_1 lat radius_meters angle) as H2.
  unfold Rsqr in *. nra.
Qed.

(** ** Running the function *)

Lemma num_points_pred_neq_0 (beamwidth : R) : IZR (num_points beamwidth - 1) <> 0.
Proof.
  pose proof (num_points_ge_10 beamwidth) as H.
  apply not_0_IZR. lia.
Qed.

Lemma angles_run (azimuth beamwidth : R) (g : Py.Globals) :
  angles azimuth beamwidth g = (g, inr (bearings azimuth beamwidth)).
Proof.
  unfold angles.
  rewrite (bind_run _ _ g (beamwidth / 2)) by (apply truediv_run; lra).
  apply comprehension_run. intros i _.
  rewrite (bind_run _ _ g _ (truediv_run _ _ g (num_points_pred_neq_0 beamwidth))).
  reflexivity.
Qed.

Lemma asin_run (x : R) (g : Py.Globals) :
  -1 <= x <= 1 -> math.asin x g = (g, inr (Ratan.asin x)).
Proof.
  intros [Hlo Hhi]. unfold math.asin.
  destruct (Rle_dec (-1) x); [|contradiction].
  destruct (Rle_dec x 1); [reflexivity|contradiction].
Qed.

Lemma arc_point_run (lat lon radius_meters angle : R) (g : Py.Globals) :
  arc_point lat lon radius_meters angle g
  = (g, inr (destination lat lon radius_meters angle)).
Proof.
  unfold arc_point.
  rewrite (bind_run _ _ g (radius_meters / R_earth))
    by (apply truediv_run; pose proof R_earth_pos; lra).
  rewrite (bind_run _ _ g _ (asin_run _ g (asin_arg_bounds lat radius_meters angle))).
  reflexivity.
Qed.

Lemma for_angle_run (lat lon radius_meters : R) (l : list R) (acc : list point)
    (g : Py.Globals) :
  for_angle lat lon radius_meters l acc g
  = (g, inr (acc ++ map (destination lat lon radius_meters) l)).
Proof.
  revert acc. induction l as [|a l IH]; intros acc; simpl.
  - now rewrite app_nil_r.
  - rewrite (bind_run _ _ g _ (arc_point_run lat lon radius_meters a g)).
    rewrite IH, <- app_assoc. reflexivity.
Qed.

Lemma get_sector_polygon_run (lat lon azimuth beamwidth radius_meters : R)
    (g : Py.Globals) :
  get_sector_polygon lat lon azimuth beamwidth radius_meters g
  = (g, inr (sector_ring lat lon azimuth beamwidth radius_meters)).
Proof.
  unfold get_sector_polygon.
  rewrite (bind_run _ _ g _ (angles_run azimuth beamwidth g)).
  rewrite (bind_run _ _ g _ (for_angle_run lat lon radius_meters _ _ g)).
  reflexivity.
Qed.

Lemma bearings_length (azimuth beamwidth : R) :
  length (bearings azimuth beamwidth) = Z.to_nat (num_points beamwidth).
Proof. unfold bearings. now rewrite length_map, range_length. Qed.

Lemma sector_ring_length (lat lon azimuth beamwidth radius_meters : R) :
  Z.of_nat (length (sector_ring lat lon azimuth beamwidth radius_meters))
  = (num_points beamwidth + 2)%Z.
Proof.
  unfold sector_ring. simpl. rewrite length_app, length_map, bearings_length. simpl.
  pose proof (num_points_ge_10 beamwidth). lia.
Qed.

Lemma get_sector_polygon_outcome (lat lon azimuth beamwidth radius_meters : R)
    (g : Py.Globals) :
  Py.outcome (get_sector_polygon lat lon azimuth beamwidth radius_meters) g
  = inr (sector_ring lat lon azimuth beamwidth radius_meters).
Proof. unfold Py.outcome. now rewrite get_sector_polygon_run. Qed.

Lemma angles_outcome (azimuth beamwidth : R) (g : Py.Globals) :
  Py.outcome (angles azimuth beamwidth) g = inr (bearings azimuth beamwidth).
Proof. unfold Py.outcome. now rewrite angles_run. Qed.

Lemma Zfloor_43_4 : Zfloor (43 / 4) = 10%Z.
Proof. apply Zfloor_eq. simpl. lra. Qed.

Lemma num_points_43_4 : num_points (43 / 4) = 10%Z.
Proof.
  rewrite num_points_eq_init. unfold num_points_init.
  destruct (Rlt_dec 10 (43 / 4)) as [_|H]; [|exfalso; lra].
  rewrite int_floor by lra. apply Zfloor_43_4.
Qed.

Lemma spec_num_points_43_4 : spec_num_points (43 / 4) = 11%Z.
Proof.
  unfold spec_num_points, round_half_even. rewrite Zfloor_43_4.
  destruct (Rlt_dec 10 (43 / 4)) as [_|H]; [|exfalso; lra].
  destruct (Rlt_dec (43 / 4 - 10) (1 / 2)) as [H|_]; [exfalso; lra|].
  destruct (Rlt_dec (1 / 2) (43 / 4 - 10)) as [_|H]; [|exfalso; lra].
  reflexivity.
Qed.

(** ** The claims *)

(** C1 (as stated, refuted): a call with a non-positive radius, a latitude
    or longitude out of range, or a non-positive beamwidth does not fail:
    each of these four calls returns a polygon. *)
Lemma C1_no_validation_counterexample :
  ~ raises (get_sector_polygon 0 0 0 60 0) Py.default_globals
  /\ ~ raises (get_sector_polygon 91 0 0 60 1000) Py.default_globals
  /\ ~ raises (get_sector_polygon 0 181 0 60 1000) Py.default_globals
  /\ ~ raises (get_sector_polygon 0 0 0 (-5) 1000) Py.default_globals.
Proof.
  unfold raises.
  repeat split; intros [e He]; rewrite get_sector_polygon_outcome in He; discriminate.
Qed.

(** C1 (amended): get_sector_polygon validates nothing; on every real
    input, valid or not, the call raises no exception and returns a
    polygon. *)
Theorem C1_never_raises (lat lon azimuth beamwidth radius_meters : R)
    (g : Py.Globals) :
  ~ raises (get_sector_polygon lat lon azimuth beamwidth radius_meters) g
  /\ exists p : list point,
       Py.outcome (get_sector_polygon lat lon azimuth beamwidth radius_meters) g = inr p.
Proof.
  split.
  - intros [e He]. rewrite get_sector_polygon_outcome in He. discriminate.
  - eexists. apply get_sector_polygon_outcome.
Qed.

(** C2 (as stated, refuted): at the valid input beamwidth = 10.75 the
    polygon has 12 points, while the spec's count, with round(10.75) = 11,
    is 13. *)
Lemma C2_round_counterexample :
  valid_input 0 0 (43 / 4) 1000
  /\ exists p : list point,
       Py.outcome (get_sector_polygon 0 0 0 (43 / 4) 1000) Py.default_globals = inr p
       /\ Z.of_nat (length p) = 12%Z
       /\ (spec_num_points (43 / 4) + 2)%Z = 13%Z.
Proof.
  split; [unfold valid_input; lra|].
  eexists. split; [apply get_sector_polygon_outcome|]. split.
  - rewrite sector_ring_length, num_points_43_4. reflexivity.
  - rewrite spec_num_points_43_4. reflexivity.
Qed.

(** C2 (amended): on every input the polygon has exactly n + 2 points,
    where n is beamwidth truncated to an integer (its floor) when
    beamwidth > 10, and n = 10 otherwise. *)
Theorem C2_polygon_length (lat lon azimuth beamwidth radius_meters : R)
    (g : Py.Globals) :
  exists p : list point,
    Py.outcome (get_sector_polygon lat lon azimuth beamwidth radius_meters) g = inr p
    /\ Z.of_nat (length p)
       = ((if Rlt_dec 10 beamwidth then Zfloor beamwidth else 10) + 2)%Z.
Proof.
  eexists. split; [apply get_sector_polygon_outcome|].
  rewrite sector_ring_length, num_points_eq_init. unfold num_points_init.
  destruct (Rlt_dec 10 beamwidth) as [H|H]; [|reflexivity].
  rewrite int_floor by lra. reflexivity.
Qed.

(** *** Trigonometry at the values the scenarios use *)

Lemma radians_0 : math.radians 0 = 0.
Proof. unfold math.radians. lra. Qed.

Lemma radians_90 : math.radians 90 = PI / 2.
Proof. unfold math.radians. lra. Qed.

Lemma radians_180 : math.radians 180 = PI.
Proof. unfold math.radians. lra. Qed.

Lemma degrees_radians (x : R) : math.degrees (math.radians x) = x.
Proof.
  unfold math.degrees, math.radians. pose proof PI_RGT_0. field. lra.
Qed.

Lemma degrees_plus (x y : R) :
  math.degrees (x + y) = math.degrees x + math.degrees y.
Proof. unfold math.degrees. ring. Qed.

Lemma degrees_pos (x : R) : 0 < x -> 0 < math.degrees x.
Proof.
  intros Hx. unfold math.degrees. pose proof PI_RGT_0.
  apply Rmult_lt_0_compat; [assumption|]. apply Rdiv_lt_0_compat; lra.
Qed.

Lemma delta_1000_bounds : 0 < 1000 / R_earth < PI / 2.
Proof.
  unfold R_earth. pose proof PI2_3_2. split.
  - apply Rdiv_lt_0_compat; lra.
  - apply Rlt_trans with 1; [|lra].
    apply Rmult_lt_reg_r with 6378137; [lra|]. field_simplify; lra.
Qed.

Lemma atan2_pos_x (y x : R) : 0 < x -> math.atan2 y x = atan (y / x).
Proof.
  intros Hx. unfold math.atan2. destruct (Rlt_dec 0 x); [reflexivity|contradiction].
Qed.

(** On the equator, the asin argument is [sin delta * cos theta]. *)
Lemma asin_arg_equator (radius_meters angle : R) :
  asin_arg 0 radius_meters angle
  = sin (radius_meters / R_earth) * cos (math.radians angle).
Proof. unfold asin_arg. rewrite radians_0, sin_0, cos_0. ring. Qed.

(** From the equator, for a distance below a quarter turn, the longitude
    offset is [atan (sin theta * tan delta)]. *)
Lemma dest_lon_equator (lon radius_meters angle : R) :
  - (PI / 2) < radius_meters / R_earth < PI / 2 ->
  dest_lon 0 lon radius_meters angle
  = lon + math.degrees (atan (sin (math.radians angle)
                              * sin (radius_meters / R_earth)
                              / cos (radius_meters / R_earth))).
Proof.
  intros [Hlo Hhi]. unfold dest_lon.
  rewrite radians_0, sin_0, cos_0.
  assert (Hc : 0 < cos (radius_meters / R_earth)) by (apply cos_gt_0; lra).
  rewrite atan2_pos_x by lra.
  rewrite degrees_plus, degrees_radians. do 3 f_equal. field. lra.
Qed.

(** *** Indexing the bearings and the ring *)

Lemma range_nth (n : Z) (k : nat) :
  (k < Z.to_nat n)%nat -> nth k (range n) 0%Z = Z.of_nat k.
Proof.
  intros Hk. unfold range.
  change 0%Z with (Z.of_nat 0). rewrite map_nth, seq_nth by assumption.
  reflexivity.
Qed.

Lemma bearings_nth (azimuth beamwidth : R) (k : nat) :
  (k < Z.to_nat (num_points beamwidth))%nat ->
  nth k (bearings azimuth beamwidth) 0 = bearing azimuth beamwidth (Z.of_nat k).
Proof.
  intros Hk. unfold bearings.
  rewrite (nth_indep _ 0 (bearing azimuth beamwidth 0%Z))
    by (now rewrite length_map, range_length).
  rewrite map_nth, range_nth by assumption. reflexivity.
Qed.

Lemma sector_ring_arc (lat lon azimuth beamwidth radius_meters : R) (k : nat) :
  (k < Z.to_nat (num_points beamwidth))%nat ->
  nth (S k) (sector_ring lat lon azimuth beamwidth radius_meters) (0, 0)
  = destination lat lon radius_meters (bearing azimuth beamwidth (Z.of_nat k)).
Proof.
  intros Hk. unfold sector_ring. cbn [nth].
  rewrite app_nth1 by (now rewrite length_map, bearings_length).
  rewrite (nth_indep _ (0, 0) (destination lat lon radius_meters 0))
    by (now rewrite length_map, bearings_length).
  rewrite map_nth, bearings_nth by assumption. reflexivity.
Qed.

Lemma num_points_small (beamwidth : R) : beamwidth <= 10 -> num_points beamwidth = 10%Z.
Proof.
  intros H. rewrite num_points_eq_init. unfold num_points_init.
  destruct (Rlt_dec 10 beamwidth); [exfalso; lra|reflexivity].
Qed.

Lemma num_points_integer (z : Z) : (10 < z)%Z -> num_points (IZR z) = z.
Proof.
  intros H. rewrite num_points_eq_init. unfold num_points_init.
  destruct (Rlt_dec 10 (IZR z)) as [_|N].
  - rewrite int_floor by (apply IZR_le; lia). apply ZfloorZ.
  - exfalso. apply N. apply IZR_lt. assumption.
Qed.

Lemma bearing_first (azimuth beamwidth : R) :
  bearing azimuth beamwidth 0 = azimuth - beamwidth / 2.
Proof.
  unfold bearing, start_angle, end_angle.
  pose proof (num_points_pred_neq_0 beamwidth). field. assumption.
Qed.

Lemma bearing_last (azimuth beamwidth : R) :
  bearing azimuth beamwidth (num_points beamwidth - 1) = azimuth + beamwidth / 2.
Proof.
  unfold bearing, start_angle, end_angle.
  pose proof (num_points_pred_neq_0 beamwidth). field. assumption.
Qed.

(** Due east from (0, 180) the longitude leaves [-180, 180]. *)
Lemma dest_lon_east_of_antimeridian :
  dest_lon 0 180 1000 90 = 180 + math.degrees (1000 / R_earth).
Proof.
  pose proof delta_1000_bounds as [Hlo Hhi].
  rewrite dest_lon_equator by lra.
  rewrite radians_90, sin_PI2. do 2 f_equal.
  replace (1 * sin (1000 / R_earth) / cos (1000 / R_earth))
    with (tan (1000 / R_earth)) by (unfold tan; field; apply Rgt_not_eq, cos_gt_0; lra).
  apply atan_tan. lra.
Qed.

(** C3: the polygon is the center, then, for every sampled bearing in
    order, the point given by the spherical forward-geodesic formula with
    Earth radius 6378137 and angular distance radius_meters / 6378137,
    converted to degrees, then the center; the longitude is not brought
    back into [-180, 180]: one step east of (0, 180) it exceeds 180. *)
Theorem C3_forward_geodesic (lat lon azimuth beamwidth radius_meters : R)
    (g : Py.Globals) :
  (exists bs p,
     Py.outcome (angles azimuth beamwidth) g = inr bs
     /\ Py.outcome (get_sector_polygon lat lon azimuth beamwidth radius_meters) g = inr p
     /\ p = (lat, lon)
            :: map (fun angle : R =>
                      let theta := math.radians angle in
                      let delta := radius_meters / 6378137 in
                      let phi1 := math.radians lat in
                      let lam1 := math.radians lon in
                      let phi2 := Ratan.asin (sin phi1 * cos delta
                                              + cos phi1 * sin delta * cos theta) in
                      let lam2 := lam1 + math.atan2 (sin theta * sin delta * cos phi1)
                                                    (cos delta - sin phi1 * sin phi2) in
                      (math.degrees phi2, math.degrees lam2)) bs
            ++ [(lat, lon)])
  /\ (exists p,
        Py.outcome (get_sector_polygon 0 180 95 10 1000) g = inr p
        /\ 180 < snd (nth 1 p (0, 0))).
Proof.
  split.
  - exists (bearings azimuth beamwidth), (sector_ring lat lon azimuth beamwidth radius_meters).
    split; [apply angles_outcome|]. split; [apply get_sector_polygon_outcome|].
    reflexivity.
  - eexists. split; [apply get_sector_polygon_outcome|].
    rewrite (sector_ring_arc 0 180 95 10 1000 0)
      by (rewrite num_points_small by lra; simpl; lia).
    change (Z.of_nat 0) with 0%Z. rewrite bearing_first.
    replace (95 - 10 / 2) with 90 by lra.
    unfold destination. cbn [snd]. rewrite dest_lon_east_of_antimeridian.
    pose proof (degrees_pos (1000 / R_earth) (proj1 delta_1000_bounds)). lra.
Qed.

Lemma ring_last {A : Type} (c : A) (m : list A) :
  nth_error (c :: m ++ [c]) (length (c :: m ++ [c]) - 1) = Some c.
Proof.
  cbn [length]. rewrite length_app. cbn [length].
  replace (S (length m + 1) - 1)%nat with (S (length m)) by lia.
  cbn [nth_error]. rewrite nth_error_app2 by lia.
  now rewrite Nat.sub_diag.
Qed.

(** C4: on every input the function returns a polygon with at least 5
    points whose first and last points are both the center (lat, lon),
    so the ring is closed. *)
Theorem C4_closed_ring (lat lon azimuth beamwidth radius_meters : R)
    (g : Py.Globals) :
  exists p : list point,
    Py.outcome (get_sector_polygon lat lon azimuth beamwidth radius_meters) g = inr p
    /\ (5 <= length p)%nat
    /\ nth_error p 0 = Some (lat, lon)
    /\ nth_error p (length p - 1) = Some (lat, lon)
    /\ nth_error p 0 = nth_error p (length p - 1).
Proof.
  exists (sector_ring lat lon azimuth beamwidth radius_meters).
  split; [apply get_sector_polygon_outcome|].
  pose proof (sector_ring_length lat lon azimuth beamwidth radius_meters) as HL.
  pose proof (num_points_ge_10 beamwidth) as Hn.
  split; [lia|]. unfold sector_ring.
  rewrite ring_last. repeat split.
Qed.

(** C5: the function samples exactly n bearings, the i-th being
    startAngle + (endAngle - startAngle) * i / (n - 1) for i = 0 .. n-1;
    the first is startAngle = azimuth - beamwidth/2 and the last is
    endAngle = azimuth + beamwidth/2; the polygon is the center, the arc
    points of these bearings in that order, and the center again. *)
Theorem C5_even_bearings (lat lon azimuth beamwidth radius_meters : R)
    (g : Py.Globals) :
  let n := num_points beamwidth in
  let startAngle := azimuth - beamwidth / 2 in
  let endAngle := azimuth + beamwidth / 2 in
  exists (bs : list R) (p : list point),
    Py.outcome (angles azimuth beamwidth) g = inr bs
    /\ Py.outcome (get_sector_polygon lat lon azimuth beamwidth radius_meters) g = inr p
    /\ bs = map (fun i : Z =>
                   startAngle + (endAngle - startAngle) * IZR i / IZR (n - 1))
                (range n)
    /\ length bs = Z.to_nat n
    /\ nth 0 bs 0 = startAngle
    /\ nth (Z.to_nat (n - 1)) bs 0 = endAngle
    /\ p = (lat, lon) :: map (destination lat lon radius_meters) bs ++ [(lat, lon)].
Proof.
  intros n startAngle endAngle.
  exists (bearings azimuth beamwidth), (sector_ring lat lon azimuth beamwidth radius_meters).
  pose proof (num_points_ge_10 beamwidth) as Hn. fold n in Hn.
  split; [apply angles_outcome|]. split; [apply get_sector_polygon_outcome|].
  split; [reflexivity|]. split; [apply bearings_length|]. split; [|split].
  - rewrite bearings_nth by (fold n; lia). apply bearing_first.
  - rewrite bearings_nth by (fold n; lia).
    rewrite Z2Nat.id by lia. apply bearing_last.
  - reflexivity.
Qed.

(** *** The scenario (0, 0), azimuth 0, beamwidth 60, radius 1000 *)

Lemma PI_bounds : 3.1415 < PI < 3.1416.
Proof.
  pose proof (PI_2_3_7_ineq 1) as [Hlo _].
  pose proof (PI_2_3_7_ineq 2) as [_ Hhi].
  unfold sum_f_R0, tg_alt, PI_2_3_7_tg, Ratan_seq in Hlo, Hhi.
  simpl in Hlo, Hhi.
  split; lra.
Qed.

Lemma num_points_60 : num_points 60 = 60%Z.
Proof. apply (num_points_integer 60). lia. Qed.

Lemma bearing_60 (i : Z) : bearing 0 60 i = -30 + 60 * IZR i / 59.
Proof.
  unfold bearing, start_angle, end_angle. rewrite num_points_60.
  change (60 - 1)%Z with 59%Z. field.
Qed.

Lemma bearing_60_range (i : Z) : (0 <= i < 60)%Z -> -30 <= bearing 0 60 i <= 30.
Proof.
  intros [Hlo Hhi]. rewrite bearing_60.
  assert (H0 : 0 <= IZR i) by (apply (IZR_le 0); assumption).
  assert (H59 : IZR i <= 59) by (apply (IZR_le i 59); lia).
  lra.
Qed.

Lemma bearing_60_neq_0 (i : Z) : bearing 0 60 i <> 0.
Proof.
  rewrite bearing_60. intros H.
  assert (E : IZR (2 * i) = IZR 59) by (rewrite mult_IZR; lra).
  apply eq_IZR in E. lia.
Qed.

Lemma degrees_eq_0 (x : R) : math.degrees x = 0 -> x = 0.
Proof.
  unfold math.degrees. intros H. pose proof PI_RGT_0 as HP.
  apply Rmult_integral in H. destruct H as [H|H]; [assumption|].
  exfalso. assert (0 < 180 / PI) by (apply Rdiv_lt_0_compat; lra). lra.
Qed.

Lemma sin_radians_neq_0 (angle : R) :
  -180 < angle < 180 -> angle <> 0 -> sin (math.radians angle) <> 0.
Proof.
  intros [Hlo Hhi] Hne. unfold math.radians. pose proof PI_RGT_0 as HP.
  destruct (Rlt_dec 0 angle) as [Hpos|Hneg].
  - apply Rgt_not_eq, sin_gt_0; nra.
  - apply Rlt_not_eq, sin_lt_0_var; nra.
Qed.

(** From (0, 0), a point 1000 m away on a bearing that is neither north
    nor south is off the meridian of the center. *)
Lemma dest_lon_off_meridian (angle : R) :
  -180 < angle < 180 -> angle <> 0 -> dest_lon 0 0 1000 angle <> 0.
Proof.
  intros Hr Hne. pose proof delta_1000_bounds as [Hlo Hhi].
  rewrite dest_lon_equator by lra. rewrite Rplus_0_l. intros H.
  apply degrees_eq_0, atan_eq0 in H.
  assert (Hs : 0 < sin (1000 / R_earth)) by (apply sin_gt_0; lra).
  assert (Hc : 0 < cos (1000 / R_earth)) by (apply cos_gt_0; lra).
  pose proof (sin_radians_neq_0 angle Hr Hne) as Hsin.
  unfold Rdiv in H. apply Rmult_integral in H. destruct H as [H|H].
  - apply Rmult_integral in H. destruct H as [H|H]; [contradiction|lra].
  - pose proof (Rinv_0_lt_compat _ Hc). lra.
Qed.

(** Due north of (0, 0): latitude delta, in degrees, and longitude 0. *)
Lemma destination_due_north :
  destination 0 0 1000 0 = (math.degrees (1000 / R_earth), 0).
Proof.
  pose proof delta_1000_bounds as [Hlo Hhi].
  unfold destination. f_equal.
  - unfold dest_lat. rewrite asin_arg_equator, radians_0, cos_0, Rmult_1_r.
    rewrite asin_sin by lra. reflexivity.
  - rewrite dest_lon_equator by lra.
    rewrite radians_0, sin_0.
    replace (0 * sin (1000 / R_earth) / cos (1000 / R_earth)) with 0
      by (unfold Rdiv; ring).
    rewrite atan_0. unfold math.degrees. ring.
Qed.

Lemma degrees_delta_1000 : 0.008983 < math.degrees (1000 / R_earth) < 0.008984.
Proof.
  pose proof PI_bounds as [Hlo Hhi]. unfold math.degrees, R_earth.
  replace (1000 / 6378137 * (180 / PI)) with (180000 / (6378137 * PI))
    by (field; lra).
  split.
  - apply Rmult_lt_reg_r with (6378137 * PI); [nra|].
    unfold Rdiv. rewrite Rmult_assoc, Rinv_l by nra. nra.
  - apply Rmult_lt_reg_r with (6378137 * PI); [nra|].
    unfold Rdiv. rewrite Rmult_assoc, Rinv_l by nra. nra.
Qed.

(** C6 (as stated, refuted): with 60 bearings spaced 60/59 degrees apart
    from -30, none is 0, and no arc point of the polygon has longitude 0:
    the polygon has no arc point due north of the center. *)
Lemma C6_no_point_due_north_counterexample :
  exists (bs : list R) (arc : list point),
    Py.outcome (angles 0 60) Py.default_globals = inr bs
    /\ Py.outcome (get_sector_polygon 0 0 0 60 1000) Py.default_globals
       = inr ((0, 0) :: arc ++ [(0, 0)])
    /\ length bs = 60%nat
    /\ length arc = 60%nat
    /\ ~ In 0 bs
    /\ Forall (fun q : point => snd q <> 0) arc.
Proof.
  exists (bearings 0 60), (map (destination 0 0 1000) (bearings 0 60)).
  split; [apply angles_outcome|]. split; [apply get_sector_polygon_outcome|].
  split; [|split; [|split]].
  - rewrite bearings_length, num_points_60. reflexivity.
  - rewrite length_map, bearings_length, num_points_60. reflexivity.
  - unfold bearings. rewrite in_map_iff. intros [i [Hi _]].
    symmetry in Hi. revert Hi. apply not_eq_sym, bearing_60_neq_0.
  - apply Forall_forall. intros q Hq.
    apply in_map_iff in Hq. destruct Hq as [b [<- Hb]].
    unfold bearings in Hb. apply in_map_iff in Hb. destruct Hb as [i [<- Hi]].
    rewrite num_points_60 in Hi. apply range_spec in Hi.
    pose proof (bearing_60_range i Hi) as Hr.
    unfold destination. cbn [snd].
    apply dest_lon_off_meridian; [lra|apply bearing_60_neq_0].
Qed.

(** C6 (amended): in this scenario the function samples 60 bearings, from
    -30 to +30 degrees, all within that span; the two middle ones are
    -30/59 and +30/59 degrees, so bearing 0 is not among them; the loop
    body at bearing 0 gives longitude exactly 0 and latitude
    1000/6378137 radians in degrees, between 0.008983 and 0.008984. *)
Theorem C6_scenario (g : Py.Globals) :
  exists (bs : list R) (p : list point),
    Py.outcome (angles 0 60) g = inr bs
    /\ Py.outcome (get_sector_polygon 0 0 0 60 1000) g = inr p
    /\ length bs = 60%nat
    /\ length p = 62%nat
    /\ nth 0 bs 0 = -30
    /\ nth 59 bs 0 = 30
    /\ Forall (fun b : R => -30 <= b <= 30) bs
    /\ nth 29 bs 0 = - (30 / 59)
    /\ nth 30 bs 0 = 30 / 59
    /\ Py.outcome (arc_point 0 0 1000 0) g = inr (math.degrees (1000 / 6378137), 0)
    /\ 0.008983 < math.degrees (1000 / 6378137) < 0.008984.
Proof.
  exists (bearings 0 60), (sector_ring 0 0 0 60 1000).
  assert (Hn : forall k : nat, (k < 60)%nat ->
               nth k (bearings 0 60) 0 = -30 + 60 * INR k / 59).
  { intros k Hk. rewrite bearings_nth by (rewrite num_points_60; lia).
    rewrite bearing_60, <- INR_IZR_INZ. reflexivity. }
  split; [apply angles_outcome|]. split; [apply get_sector_polygon_outcome|].
  split; [rewrite bearings_length, num_points_60; reflexivity|].
  split.
  { pose proof (sector_ring_length 0 0 0 60 1000) as HL.
    rewrite num_points_60 in HL. lia. }
  split; [rewrite Hn by lia; simpl; lra|].
  split; [rewrite Hn by lia; simpl; lra|].
  split.
  { apply Forall_forall. intros b Hb. unfold bearings in Hb.
    apply in_map_iff in Hb. destruct Hb as [i [<- Hi]].
    rewrite num_points_60 in Hi. apply range_spec in Hi.
    now apply bearing_60_range. }
  split; [rewrite Hn by lia; simpl; lra|].
  split; [rewrite Hn by lia; simpl; lra|].
  split.
  - unfold Py.outcome. rewrite arc_point_run. cbn [snd]. f_equal.
    apply destination_due_north.
  - apply degrees_delta_1000.
Qed.

(** *** Periodicity in the azimuth *)

Lemma bearing_shift (azimuth beamwidth : R) (i : Z) :
  bearing (azimuth + 360) beamwidth i = bearing azimuth beamwidth i + 360.
Proof.
  unfold bearing, start_angle, end_angle.
  pose proof (num_points_pred_neq_0 beamwidth). field. assumption.
Qed.

Lemma radians_shift (angle : R) :
  math.radians (angle + 360) = math.radians angle + 2 * PI.
Proof. unfold math.radians. field. Qed.

Lemma destination_shift (lat lon radius_meters angle : R) :
  destination lat lon radius_meters (angle + 360)
  = destination lat lon radius_meters angle.
Proof.
  unfold destination, dest_lat, dest_lon, asin_arg.
  rewrite radians_shift, sin_plus, cos_plus, sin_2PI, cos_2PI.
  rewrite !Rmult_0_r, !Rmult_1_r, Rplus_0_r, Rminus_0_r. reflexivity.
Qed.

Lemma sector_ring_shift (lat lon azimuth beamwidth radius_meters : R) :
  sector_ring lat lon (azimuth + 360) beamwidth radius_meters
  = sector_ring lat lon azimuth beamwidth radius_meters.
Proof.
  unfold sector_ring, bearings. do 2 f_equal.
  rewrite !map_map. apply map_ext. intros i.
  rewrite bearing_shift. apply destination_shift.
Qed.

Lemma sector_ring_shift_nat (lat lon azimuth beamwidth radius_meters : R) (k : nat) :
  sector_ring lat lon (azimuth + 360 * INR k) beamwidth radius_meters
  = sector_ring lat lon azimuth beamwidth radius_meters.
Proof.
  induction k as [|k IH].
  - simpl. f_equal. lra.
  - rewrite S_INR.
    replace (azimuth + 360 * (INR k + 1)) with (azimuth + 360 * INR k + 360) by ring.
    now rewrite sector_ring_shift.
Qed.

Lemma sector_ring_shift_Z (lat lon azimuth beamwidth radius_meters : R) (k : Z) :
  sector_ring lat lon (azimuth + 360 * IZR k) beamwidth radius_meters
  = sector_ring lat lon azimuth beamwidth radius_meters.
Proof.
  destruct (Z_le_gt_dec 0 k) as [Hk|Hk].
  - rewrite <- (Z2Nat.id k) by assumption. rewrite <- INR_IZR_INZ.
    apply sector_ring_shift_nat.
  - rewrite <- (sector_ring_shift_nat lat lon (azimuth + 360 * IZR k) _ _ (Z.to_nat (- k))).
    rewrite INR_IZR_INZ, Z2Nat.id, opp_IZR by lia.
    f_equal. ring.
Qed.

(** C7: adding 360 degrees to the azimuth, or any whole number of turns,
    positive or negative, leaves the call's result unchanged. *)
Theorem C7_azimuth_mod_360 (lat lon azimuth beamwidth radius_meters : R)
    (g : Py.Globals) :
  get_sector_polygon lat lon (azimuth + 360) beamwidth radius_meters g
  = get_sector_polygon lat lon azimuth beamwidth radius_meters g
  /\ forall k : Z,
       get_sector_polygon lat lon (azimuth + 360 * IZR k) beamwidth radius_meters g
       = get_sector_polygon lat lon azimuth beamwidth radius_meters g.
Proof.
  split; [|intros k]; rewrite !get_sector_polygon_run.
  - now rewrite sector_ring_shift.
  - now rewrite sector_ring_shift_Z.
Qed.

(** C8: the result of a call is a function of the five arguments alone:
    two calls with the same arguments give the same outcome whatever the
    sidebar state each one starts in, and a call leaves that state as it
    found it. *)
Theorem C8_deterministic (lat lon azimuth beamwidth radius_meters : R)
    (g1 g2 : Py.Globals) :
  Py.outcome (get_sector_polygon lat lon azimuth beamwidth radius_meters) g1
  = Py.outcome (get_sector_polygon lat lon azimuth beamwidth radius_meters) g2
  /\ fst (get_sector_polygon lat lon azimuth beamwidth radius_meters g1) = g1.
Proof.
  rewrite !get_sector_polygon_outcome, get_sector_polygon_run. split; reflexivity.
Qed.

(** C9: for every real input the argument of asin lies in [-1, 1], its
    magnitude being at most sqrt(cos(delta)^2 + sin(delta)^2 cos(theta)^2),
    itself at most 1; so math.asin does not raise, and the function
    returns a polygon on every input. *)
Theorem C9_asin_domain (lat lon azimuth beamwidth radius_meters angle : R)
    (g : Py.Globals) :
  let theta := math.radians angle in
  let delta := radius_meters / R_earth in
  let phi1 := math.radians lat in
  let x := sin phi1 * cos delta + cos phi1 * sin delta * cos theta in
  -1 <= x <= 1
  /\ Rabs x <= sqrt ((cos delta)² + (sin delta)² * (cos theta)²) <= 1
  /\ Py.outcome (math.asin x) g = inr (Ratan.asin x)
  /\ exists p : list point,
       Py.outcome (get_sector_polygon lat lon azimuth beamwidth radius_meters) g = inr p.
Proof.
  intros theta delta phi1 x.
  pose proof (asin_arg_bounds lat radius_meters angle) as Hb.
  pose proof (asin_arg_sqr lat radius_meters angle) as Hs.
  pose proof (asin_arg_sqr_le_1 lat radius_meters angle) as H1.
  change (asin_arg lat radius_meters angle) with x in Hb, Hs.
  fold delta theta in Hs, H1.
  split; [exact Hb|]. split; [split|split].
  - rewrite <- sqrt_Rsqr_abs. apply sqrt_le_1_alt. exact Hs.
  - rewrite <- sqrt_1. apply sqrt_le_1_alt. exact H1.
  - unfold Py.outcome. now rewrite asin_run.
  - eexists. apply get_sector_polygon_outcome.
Qed.

(** C10: the number of arc points is at least 10 on every input: the
    value computed on line 44 is already at least 10, the test of line 45
    is never true, and every returned polygon has at least 12 points. *)
Theorem C10_at_least_ten (lat lon azimuth beamwidth radius_meters : R)
    (g : Py.Globals) :
  (10 <= num_points_init beamwidth)%Z
  /\ (num_points_init beamwidth <? 3)%Z = false
  /\ num_points beamwidth = num_points_init beamwidth
  /\ exists p : list point,
       Py.outcome (get_sector_polygon lat lon azimuth beamwidth radius_meters) g = inr p
       /\ (12 <= length p)%nat.
Proof.
  pose proof (num_points_init_ge_10 beamwidth) as H.
  split; [exact H|]. split; [apply Z.ltb_ge; lia|].
  split; [apply num_points_eq_init|].
  eexists. split; [apply get_sector_polygon_outcome|].
  pose proof (sector_ring_length lat lon azimuth beamwidth radius_meters) as HL.
  rewrite num_points_eq_init in HL. lia.
Qed.

(** ** Further properties of the sector geometry and of the script *)

Lemma atan_nonneg (t : R) : 0 <= t -> 0 <= atan t.
Proof.
  intros [H | <-]; [|rewrite atan_0; lra].
  left. rewrite <- atan_0. now apply atan_increasing.
Qed.



Lemma sqrt_hypot (x y : R) :
  x <> 0 -> sqrt (x * x + y * y) = Rabs x * sqrt (1 + (y / x)²).
Proof.
  intros Hx. rewrite <- sqrt_Rsqr_abs, <- sqrt_mult.
  - f_equal. unfold Rsqr. field. assumption.
  - apply Rle_0_sqr.
  - pose proof (Rle_0_sqr (y / x)). lra.
Qed.

Lemma hypot_cos_atan2 (y x : R) :
  sqrt (x * x + y * y) * cos (math.atan2 y x) = x.
Proof.
  unfold math.atan2.
  assert (Hs : forall t, 0 < sqrt (1 + t²)).
  { intros t. apply sqrt_lt_R0. pose proof (Rle_0_sqr t). lra. }
  destruct (Rlt_dec 0 x) as [Hx|Hx].
  - rewrite sqrt_hypot by lra. rewrite cos_atan, Rabs_pos_eq by lra.
    field. apply Rgt_not_eq, Hs.
  - destruct (Rlt_dec x 0) as [Hx'|Hx'].
    + rewrite sqrt_hypot by lra. rewrite Rabs_left by assumption.
      destruct (Rle_dec 0 y).
      * rewrite neg_cos, cos_atan. field. apply Rgt_not_eq, Hs.
      * unfold Rminus. rewrite cos_plus, cos_neg, sin_neg, cos_PI, sin_PI, cos_atan.
        field. apply Rgt_not_eq, Hs.
    + assert (x = 0) by lra. subst x.
      destruct (Rlt_dec 0 y); [rewrite cos_PI2; ring|].
      destruct (Rlt_dec y 0); [rewrite cos_neg, cos_PI2; ring|].
      assert (y = 0) by lra. subst y.
      replace (0 * 0 + 0 * 0) with 0 by ring. rewrite sqrt_0. ring.
Qed.

Lemma radians_degrees (x : R) : math.radians (math.degrees x) = x.
Proof.
  unfold math.degrees, math.radians. pose proof PI_RGT_0. field. lra.
Qed.

Lemma cos_radians_lat_nonneg (lat : R) : -90 <= lat <= 90 -> 0 <= cos (math.radians lat).
Proof.
  intros H. pose proof PI_RGT_0. apply cos_ge_0; unfold math.radians; nra.
Qed.

Lemma destination_central_angle (lat lon radius_meters angle : R) :
  -90 <= lat <= 90 ->
  cos_central_angle (lat, lon) (destination lat lon radius_meters angle)
  = cos (radius_meters / R_earth).
Proof.
  intros Hlat. pose proof (cos_radians_lat_nonneg lat Hlat) as Hc1.
  pose proof (asin_arg_bounds lat radius_meters angle) as Ha.
  unfold cos_central_angle, destination, dest_lat, dest_lon. cbn [fst snd].
  rewrite radians_degrees.
  replace (math.degrees _ - lon) with
    (math.degrees (math.atan2
       (sin (math.radians angle) * sin (radius_meters / R_earth) * cos (math.radians lat))
       (cos (radius_meters / R_earth)
        - sin (math.radians lat) * sin (Ratan.asin (asin_arg lat radius_meters angle)))))
    by (rewrite degrees_plus, degrees_radians; ring).
  rewrite radians_degrees, sin_asin, cos_asin by assumption.
  set (a := asin_arg lat radius_meters angle) in *.
  set (p := math.radians lat) in *. set (d := radius_meters / R_earth).
  set (t := math.radians angle).
  set (y := sin t * sin d * cos p). set (x := cos d - sin p * a).
  pose proof (hypot_cos_atan2 y x) as Hh.
  pose proof (sin2_cos2 p) as Hp. pose proof (sin2_cos2 d) as Hd.
  pose proof (sin2_cos2 t) as Ht. unfold Rsqr in Hp, Hd, Ht.
  assert (Ea : a = sin p * cos d + cos p * sin d * cos t) by reflexivity.
  assert (Hxy : x * x + y * y = (cos p * cos p) * (1 - a²)).
  { unfold x, y, Rsqr. rewrite Ea.
    nsatz. }
  rewrite Hxy in Hh. rewrite sqrt_mult in Hh; [|nra|unfold Rsqr; nra].
  rewrite sqrt_square in Hh by assumption.
  rewrite Hh. unfold x. ring.
Qed.

Lemma destination_distance (lat lon radius_meters angle : R) :
  -90 <= lat <= 90 -> 0 <= radius_meters <= PI * R_earth ->
  great_circle_distance (lat, lon) (destination lat lon radius_meters angle)
  = radius_meters.
Proof.
  intros Hlat [Hr0 Hr1]. unfold great_circle_distance.
  rewrite destination_central_angle by assumption.
  pose proof R_earth_pos as HR.
  rewrite acos_cos.
  - field. lra.
  - split.
    + apply Rmult_le_pos; [assumption|]. left. now apply Rinv_0_lt_compat.
    + apply Rmult_le_reg_r with R_earth; [assumption|].
      unfold Rdiv. rewrite Rmult_assoc, Rinv_l by lra. lra.
Qed.

(** X1: for a latitude in [-90, 90] and a radius between 0 and half the
    Earth's circumference, every arc point of the polygon lies at
    great-circle distance exactly radius_meters from the center. *)
Theorem X1_arc_points_at_radius (lat lon azimuth beamwidth radius_meters : R) (g : Py.Globals) :
  -90 <= lat <= 90 -> 0 <= radius_meters <= PI * R_earth ->
  exists arc : list point,
    Py.outcome (get_sector_polygon lat lon azimuth beamwidth radius_meters) g
    = inr ((lat, lon) :: arc ++ [(lat, lon)])
    /\ Forall (fun q => great_circle_distance (lat, lon) q = radius_meters) arc.
Proof.
  intros Hlat Hr. eexists. split; [apply get_sector_polygon_outcome|].
  apply Forall_forall. intros q Hq. apply in_map_iff in Hq.
  destruct Hq as [b [<- _]]. now apply destination_distance.
Qed.

Lemma X1_arc_points_at_radius_witness :
  -90 <= 0 <= 90
  /\ 0 <= 1000 <= PI * R_earth
  /\ exists arc : list point,
       Py.outcome (get_sector_polygon 0 0 0 60 1000) Py.default_globals
       = inr ((0, 0) :: arc ++ [(0, 0)])
       /\ Forall (fun q => great_circle_distance (0, 0) q = 1000) arc.
Proof.
  assert (H1 : -90 <= 0 <= 90) by lra.
  assert (H2 : 0 <= 1000 <= PI * R_earth)
    by (pose proof PI2_3_2; unfold R_earth; lra).
  split; [exact H1|]. split; [exact H2|].
  exact (X1_arc_points_at_radius 0 0 0 60 1000 Py.default_globals H1 H2).
Defined.








Lemma destination_lon_shift (lat lon radius_meters angle d : R) :
  destination lat (lon + d) radius_meters angle
  = (fst (destination lat lon radius_meters angle),
     snd (destination lat lon radius_meters angle) + d).
Proof.
  unfold destination, dest_lon. cbn [fst snd]. f_equal.
  rewrite !degrees_plus, !degrees_radians. ring.
Qed.

(** X3: moving the center east by d degrees moves every point of the
    polygon east by d degrees and changes nothing else. *)
Theorem X3_longitude_shift (lat lon azimuth beamwidth radius_meters d : R) (g : Py.Globals) :
  exists p : list point,
    Py.outcome (get_sector_polygon lat lon azimuth beamwidth radius_meters) g = inr p
    /\ Py.outcome (get_sector_polygon lat (lon + d) azimuth beamwidth radius_meters) g
       = inr (map (fun q : point => (fst q, snd q + d)) p).
Proof.
  eexists. split; [apply get_sector_polygon_outcome|].
  rewrite get_sector_polygon_outcome. f_equal. unfold sector_ring.
  cbn [map fst snd]. f_equal. rewrite map_app, map_map. cbn [map fst snd].
  f_equal. apply map_ext. intros a. apply destination_lon_shift.
Qed.





Lemma bearing_beamwidth_0 (azimuth : R) (i : Z) : bearing azimuth 0 i = azimuth.
Proof.
  unfold bearing, start_angle, end_angle.
  pose proof (num_points_pred_neq_0 0). field. assumption.
Qed.

(** X5: with beamwidth 0 the ten sampled bearings are all the azimuth,
    and the ten arc points are one and the same point. *)
Theorem X5_zero_beamwidth (lat lon azimuth radius_meters : R) (g : Py.Globals) :
  Py.outcome (angles azimuth 0) g = inr (repeat azimuth 10)
  /\ exists q : point,
       Py.outcome (arc_point lat lon radius_meters azimuth) g = inr q
       /\ Py.outcome (get_sector_polygon lat lon azimuth 0 radius_meters) g
          = inr ((lat, lon) :: repeat q 10 ++ [(lat, lon)]).
Proof.
  assert (E : bearings azimuth 0 = repeat azimuth 10).
  { unfold bearings. rewrite num_points_small by lra.
    change (range 10) with (map Z.of_nat (seq 0 10)). cbn [seq map].
    rewrite !bearing_beamwidth_0. reflexivity. }
  split; [rewrite angles_outcome; now rewrite E|].
  exists (destination lat lon radius_meters azimuth). split.
  - unfold Py.outcome. now rewrite arc_point_run.
  - rewrite get_sector_polygon_outcome. unfold sector_ring. rewrite E. reflexivity.
Qed.












Lemma plot_row_run {Cell : Type} (B : Builtins Cell) (row : Row Cell) (g : Py.Globals) :
  plot_row B row g
  = (g, match conversions B row with
        | inl e => inl e
        | inr v => inr (sector_layer B row g v)
        end).
Proof.
  unfold plot_row, conversions, call, Py.bind.
  destruct (float B (LATITUDE row)) as [e|lat]; [reflexivity|].
  destruct (float B (LONGITUDE row)) as [e|lon]; [reflexivity|].
  destruct (float B (AZIMUTH row)) as [e|az]; [reflexivity|].
  destruct (float B (BEAMWIDTH_H row)) as [e|bw]; [reflexivity|].
  unfold global. rewrite get_sector_polygon_run. reflexivity.
Qed.

Lemma for_row_step {Cell : Type} (B : Builtins Cell) (i : Z) (row : Row Cell)
    (rest : list (Z * Row Cell)) (m : list Polygon) (w : list string) (g : Py.Globals) :
  for_row B ((i, row) :: rest) m w g
  = match conversions B row with
    | inl e => for_row B rest m (w ++ [warning_text i e]) g
    | inr v =>
        if (100 <? i)%Z then (g, inr (m ++ [sector_layer B row g v], w))
        else for_row B rest (m ++ [sector_layer B row g v]) w g
    end.
Proof.
  cbn [for_row]. unfold Py.bind at 1. unfold try_except.
  unfold Py.bind at 1. rewrite plot_row_run.
  destruct (conversions B row) as [e|v]; cbn.
  - reflexivity.
  - destruct (100 <? i)%Z; reflexivity.
Qed.

(** X9: missing_cols holds exactly the required columns that are not
    among the frame's columns; it is empty exactly when every required
    column is present. *)
Theorem X9_missing_cols (columns : list string) :
  (forall col, In col (missing_cols columns)
               <-> In col REQUIRED_COLUMNS /\ ~ In col columns)
  /\ (missing_cols columns = [] <-> incl REQUIRED_COLUMNS columns).
Proof.
  assert (Hmem : forall col, existsb (String.eqb col) columns = true <-> In col columns).
  { intros col. rewrite existsb_exists. split.
    - intros [x [Hx E]]. apply String.eqb_eq in E. now subst.
    - intros H. exists col. split; [assumption|apply String.eqb_refl]. }
  assert (Hin : forall col, In col (missing_cols columns)
                            <-> In col REQUIRED_COLUMNS /\ ~ In col columns).
  { intros col. unfold missing_cols. rewrite filter_In, negb_true_iff.
    rewrite <- Hmem. destruct (existsb (String.eqb col) columns); intuition congruence. }
  split; [exact Hin|]. split.
  - intros E col Hc. destruct (in_dec string_dec col columns) as [H|H]; [assumption|].
    exfalso. assert (Hm : In col (missing_cols columns)) by (apply Hin; now split).
    rewrite E in Hm. destruct Hm.
  - intros Hincl. destruct (missing_cols columns) as [|c l] eqn:E; [reflexivity|].
    exfalso. assert (Hc : In c (c :: l)) by now left.
    apply Hin in Hc. destruct Hc as [Hr Hn]. apply Hn, Hincl, Hr.
Qed.

(** X10: the loop over the rows never raises and leaves the sidebar
    state unchanged; it only appends to the map's layers and to the
    warnings, and adds at most one layer or warning per row. *)
Theorem X10_for_row_never_raises {Cell : Type} (B : Builtins Cell) (rows : list (Z * Row Cell))
    (m : list Polygon) (w : list string) (g : Py.Globals) :
  exists (m' : list Polygon) (w' : list string),
    for_row B rows m w g = (g, inr (m ++ m', w ++ w'))
    /\ (length m' + length w' <= length rows)%nat.
Proof.
  revert m w. induction rows as [|[i row] rest IH]; intros m w.
  - exists [], []. rewrite !app_nil_r. split; [reflexivity|simpl; lia].
  - rewrite for_row_step. destruct (conversions B row) as [e|v].
    + destruct (IH m (w ++ [warning_text i e])) as [m' [w' [E L]]].
      exists m', (warning_text i e :: w'). rewrite E, <- app_assoc.
      split; [reflexivity|simpl; lia].
    + destruct (100 <? i)%Z.
      * exists [sector_layer B row g v], []. rewrite app_nil_r.
        split; [reflexivity|simpl; lia].
      * destruct (IH (m ++ [sector_layer B row g v]) w) as [m' [w' [E L]]].
        exists (sector_layer B row g v :: m'), w'. rewrite E, <- app_assoc.
        split; [reflexivity|simpl; lia].
Qed.

Lemma sector_ring_closed (lat lon azimuth beamwidth radius_meters : R) :
  closed_ring (sector_ring lat lon azimuth beamwidth radius_meters).
Proof. unfold closed_ring, sector_ring. eauto. Qed.

Lemma sector_ring_length_ge_12 (lat lon azimuth beamwidth radius_meters : R) :
  (12 <= length (sector_ring lat lon azimuth beamwidth radius_meters))%nat.
Proof.
  pose proof (sector_ring_length lat lon azimuth beamwidth radius_meters).
  pose proof (num_points_ge_10 beamwidth). lia.
Qed.

(** X11: every layer the loop adds is a closed ring of at least 12
    points, drawn with a black border of weight 1 and filled with the
    sidebar's colour and opacity. *)
Theorem X11_layers_well_formed {Cell : Type} (B : Builtins Cell) (rows : list (Z * Row Cell))
    (m : list Polygon) (w : list string) (g : Py.Globals) :
  exists (m' : list Polygon) (w' : list string),
    for_row B rows m w g = (g, inr (m ++ m', w ++ w'))
    /\ Forall (fun p : Polygon =>
                 closed_ring (locations p)
                 /\ (12 <= length (locations p))%nat
                 /\ color p = "black"%string
                 /\ weight p = 1%Z
                 /\ fill p = true
                 /\ fill_color p = Py.sector_color g
                 /\ fill_opacity p = Py.fill_opacity g) m'.
Proof.
  assert (Hl : forall row v,
             (fun p : Polygon =>
                closed_ring (locations p)
                /\ (12 <= length (locations p))%nat
                /\ color p = "black"%string
                /\ weight p = 1%Z
                /\ fill p = true
                /\ fill_color p = Py.sector_color g
                /\ fill_opacity p = Py.fill_opacity g) (sector_layer B row g v)).
  { intros row [[[lat lon] az] bw]. cbn.
    split; [apply sector_ring_closed|]. split; [apply sector_ring_length_ge_12|].
    repeat split. }
  revert m w. induction rows as [|[i row] rest IH]; intros m w.
  - exists [], []. rewrite !app_nil_r. split; [reflexivity|constructor].
  - rewrite for_row_step. destruct (conversions B row) as [e|v].
    + destruct (IH m (w ++ [warning_text i e])) as [m' [w' [E L]]].
      exists m', (warning_text i e :: w'). rewrite E, <- app_assoc.
      split; [reflexivity|assumption].
    + destruct (100 <? i)%Z.
      * exists [sector_layer B row g v], []. rewrite app_nil_r.
        split; [reflexivity|]. constructor; [apply Hl|constructor].
      * destruct (IH (m ++ [sector_layer B row g v]) w) as [m' [w' [E L]]].
        exists (sector_layer B row g v :: m'), w'. rewrite E, <- app_assoc.
        split; [reflexivity|]. constructor; [apply Hl|assumption].
Qed.




(** X13: when [float] rejects a cell of every row, the loop adds no
    layer and one warning per row, whatever the row labels: a rejected
    row never ends the loop, even with a label above 100. *)
Theorem X13_rejected_rows_only_warn {Cell : Type} (B : Builtins Cell) (rows : list (Z * Row Cell))
    (m : list Polygon) (w : list string) (g : Py.Globals) :
  Forall (fun r => exists e, conversions B (snd r) = inl e) rows ->
  exists w' : list string,
    for_row B rows m w g = (g, inr (m, w ++ w'))
    /\ length w' = length rows.
Proof.
  revert w. induction rows as [|[i row] rest IH]; intros w Hbad.
  - exists []. rewrite app_nil_r. split; reflexivity.
  - inversion Hbad as [|? ? [e He] Hbad']; subst. cbn [snd] in He.
    rewrite for_row_step, He.
    destruct (IH (w ++ [warning_text i e]) Hbad') as [w' [E L]].
    exists (warning_text i e :: w'). rewrite E, <- app_assoc.
    split; [reflexivity|]. cbn [length]. lia.
Qed.

Lemma X13_rejected_rows_only_warn_witness :
  exists w' : list string,
    for_row text_builtins [(7%Z, text_row); (250%Z, text_row)] [] []
            Py.default_globals
    = (Py.default_globals, inr ([], [] ++ w'))
    /\ length w' = 2%nat.
Proof.
  apply (X13_rejected_rows_only_warn text_builtins
           [(7%Z, text_row); (250%Z, text_row)] [] [] Py.default_globals).
  repeat constructor; eexists; reflexivity.
Defined.




